(** * Account Service: the request handlers of [service/routes.py]

    The handlers are embedded as computations in a small monad that reads
    the current request, threads the persisted state and may abort with
    an HTTP error, mirroring Flask's implicit request context, the
    database session and [abort].  The calls to [app.logger] have no
    effect on requests, responses or records and are left out.

    The [Account] model class, the status constants and the error handlers
    are not part of [service/routes.py]; they are modelled from the
    specification and marked as such. *)

From stdpp Require Import base option strings list gmap fin_maps pretty.

Local Open Scope Z_scope.
Local Open Scope string_scope.

(** ** Collaborators *)

(** Modelled from the spec: the Serialization Collaborator, which is
    external to the handlers and converts between wire JSON and the
    business fields of an Account.  The business fields are opaque to the
    handlers.  [deserialize_fields] answers [None] when the body does not
    describe a valid Account (missing required fields, bad data);
    a client-supplied id is not honoured, so the result holds business
    fields only.  [blank] is the content of a freshly constructed
    [Account()]. *)
Class Serializer := {
  Json : Type;
  Fields : Type;
  blank : Fields;
  serialize_fields : option Z → Fields → Json;
  deserialize_fields : Json → option Fields;
}.

(** Modelled from the spec: the status constants of
    [service.common.status], with the numbers the spec gives. *)
Module status.
Definition HTTP_200_OK : Z := 200.
Definition HTTP_201_CREATED : Z := 201.
Definition HTTP_204_NO_CONTENT : Z := 204.
Definition HTTP_400_BAD_REQUEST : Z := 400.
Definition HTTP_404_NOT_FOUND : Z := 404.
Definition HTTP_415_UNSUPPORTED_MEDIA_TYPE : Z := 415.
Definition HTTP_500_INTERNAL_SERVER_ERROR : Z := 500.
End status.

(** ** Requests, responses and the handler monad *)

(** What a handler reads from Flask's [request]: the declared
    [Content-Type] header ([None] when the header is missing), the body
    as [request.get_json()] would parse it ([None] when it is missing or
    malformed), and the scheme, host and script root that [url_for]
    prepends to a path when [_external=True]. *)
Record Request `{Serializer} := {
  content_type_header : option string;
  json_body : option Json;
  external_base : string;
}.

Inductive Body `{Serializer} :=
  | JsonBody (j : Json)
  | JsonList (js : list Json)
  | TextBody (s : string).

Record Response `{Serializer} := {
  body : Body;
  status_code : Z;
  headers : list (string * string);
}.

(** The exceptions that end a request: [abort(code, description)],
    the model's [DataValidationError], and [url_for]'s [BuildError]. *)
Inductive Error :=
  | HTTPException (code : Z) (description : string)
  | DataValidationError
  | BuildError.

(** Modelled from the spec: the error handlers (not in [routes.py]) turn
    a failed deserialization into 400 BadRequest; an [abort] keeps its
    code. *)
Definition error_status (e : Error) : Z :=
  match e with
  | HTTPException code _ => code
  | DataValidationError => status.HTTP_400_BAD_REQUEST
  | BuildError => status.HTTP_500_INTERNAL_SERVER_ERROR
  end.

(** Modelled from the spec: the state of the Persistence Collaborator,
    which is not in [routes.py]: the table of accounts, addressable by
    integer id, and the sequence the next id is drawn from. *)
Record Store `{Serializer} := {
  rows : gmap Z Fields;
  next_id : Z;
}.

(** The persistence operations a handler can invoke: find-by-id,
    find-all, insert, update and delete. *)
Inductive Call :=
  | CallFind (by_id : Z)
  | CallAll
  | CallCreate
  | CallUpdate (on_id : option Z)
  | CallDelete (on_id : option Z).

(** The state a request runs against: the persisted store, and the
    persistence operations invoked so far, oldest first. *)
Record World `{Serializer} := {
  db : Store;
  calls : list Call;
}.

Inductive Outcome (A : Type) :=
  | Return (a : A)
  | Raise (e : Error).
Arguments Return {A} a.
Arguments Raise {A} e.

Definition View `{Serializer} (A : Type) : Type :=
  Request → World → Outcome A * World.

Definition view_ret `{Serializer} {A} (a : A) : View A :=
  λ _ w, (Return a, w).

Definition view_bind `{Serializer} {A B} (f : A → View B) (m : View A) : View B :=
  λ req w,
    match m req w with
    | (Return a, w') => f a req w'
    | (Raise e, w') => (Raise e, w')
    end.

#[global] Instance View_ret `{Serializer} : MRet View := @view_ret _.
#[global] Instance View_bind `{Serializer} : MBind View := @view_bind _.

Definition raise `{Serializer} {A} (e : Error) : View A :=
  λ _ w, (Raise e, w).

(** [abort(code, description)] *)
Definition abort `{Serializer} {A} (code : Z) (description : string) : View A :=
  raise (HTTPException code description).

Definition ask `{Serializer} : View Request :=
  λ req w, (Return req, w).

(** One persistence operation: it is recorded, and acts on the store. *)
Definition persistence `{Serializer} {A} (c : Call) (op : Store → A * Store) : View A :=
  λ _ w,
    let '(a, s) := op (db w) in
    (Return a, {| db := s; calls := calls w ++ [c] |}).

(** The status a client sees. *)
Definition outcome_status `{Serializer} (o : Outcome Response) : Z :=
  match o with
  | Return r => status_code r
  | Raise e => error_status e
  end.

(** ** The Account model *)

(** The [Account] class of [service.models] is not in [routes.py]; the
    module below models it from the specification.  Persistence owns the
    records, and a handler holds request-scoped copies of them. *)
Module Account.

(** Modelled from the spec: the Account entity of [service.models], its
    id ([None] before creation, assigned by persistence) and its
    business fields. *)
Record t `{Serializer} := { id : option Z; fields : Fields }.

(** Modelled from the spec: [Account()] of [service.models], an Account
    that has not been created yet. *)
Definition new `{Serializer} : t := {| id := None; fields := blank |}.

(** Modelled from the spec: [Account.serialize] of [service.models]. *)
Definition serialize `{Serializer} (self : t) : Json :=
  serialize_fields (id self) (fields self).

(** Modelled from the spec: [Account.deserialize] of [service.models].
    It overwrites the mutable fields from [data] and leaves the id
    unchanged; a body that is not a valid Account raises. *)
Definition deserialize `{Serializer} (self : t) (data : Json) : View t :=
  match deserialize_fields data with
  | Some f => mret {| id := id self; fields := f |}
  | None => raise DataValidationError
  end.

(** The Account that a stored row holds. *)
Definition of_row `{Serializer} (row : Z * Fields) : t :=
  {| id := Some row.1; fields := row.2 |}.

(** Modelled from the spec: the record stored under [by_id], if any. *)
Definition stored `{Serializer} (s : Store) (by_id : Z) : option t :=
  (λ f, {| id := Some by_id; fields := f |}) <$> rows s !! by_id.

(** Modelled from the spec: every stored record, once, in the store's
    enumeration order. *)
Definition listing `{Serializer} (s : Store) : list t :=
  of_row <$> map_to_list (rows s).

(** Modelled from the spec: [Account.find] of [service.models],
    find-by-id. *)
Definition find `{Serializer} (by_id : Z) : View (option t) :=
  persistence (CallFind by_id) (λ s, (stored s by_id, s)).

(** Modelled from the spec: [Account.all] of [service.models],
    find-all. *)
Definition all `{Serializer} : View (list t) :=
  persistence CallAll (λ s, (listing s, s)).

(** Modelled from the spec: [Account.create] of [service.models], the
    insert; persistence assigns the next id of the sequence. *)
Definition create `{Serializer} (self : t) : View t :=
  persistence CallCreate
    (λ s, ({| id := Some (next_id s); fields := fields self |},
           {| rows := <[next_id s := fields self]> (rows s);
              next_id := next_id s + 1 |})).

(** Modelled from the spec: [Account.update] of [service.models]; the
    record with the account's id takes the account's fields. *)
Definition update `{Serializer} (self : t) : View () :=
  persistence (CallUpdate (id self))
    (λ s, ((),
           match id self with
           | Some i => {| rows := alter (λ _, fields self) i (rows s);
                          next_id := next_id s |}
           | None => s
           end)).

(** Modelled from the spec: [Account.delete] of [service.models]; the
    record with the account's id is removed. *)
Definition delete `{Serializer} (self : t) : View () :=
  persistence (CallDelete (id self))
    (λ s, ((),
           match id self with
           | Some i => {| rows := base.delete i (rows s); next_id := next_id s |}
           | None => s
           end)).

End Account.

(** ** Flask helpers used by the handlers *)

(** [request.headers.get("Content-Type")] *)
Definition request_headers_get_content_type `{Serializer} : View (option string) :=
  req ← ask; mret (content_type_header req).

(** [request.get_json()]: a body that is missing or does not parse is a
    400 BadRequest. *)
Definition request_get_json `{Serializer} : View Json :=
  req ← ask;
  match json_body req with
  | Some data => mret data
  | None => abort status.HTTP_400_BAD_REQUEST "Failed to decode JSON object"
  end.

(** The rule of the [get_account] endpoint, [/accounts/<int:account_id>]. *)
Definition get_account_path (account_id : Z) : string :=
  "/accounts/" +:+ pretty account_id.

(** [url_for("get_account", account_id=..., _external=True)] *)
Definition url_for_get_account `{Serializer} (account_id : option Z) : View string :=
  req ← ask;
  match account_id with
  | Some i => mret (external_base req +:+ get_account_path i)
  | None => raise BuildError
  end.

Definition jsonify `{Serializer} (j : Json) : Body := JsonBody j.
Definition jsonify_list `{Serializer} (js : list Json) : Body := JsonList js.

Definition make_response `{Serializer} (b : Body) (code : Z)
    (hs : list (string * string)) : Response :=
  {| body := b; status_code := code; headers := hs |}.

(** Python truthiness of an optional string: [None] and [""] are false. *)
Definition truthy (s : option string) : bool :=
  match s with
  | Some s => negb (String.eqb s "")
  | None => false
  end.

(** [a == b] where [a] may be [None] *)
Definition opt_str_eqb (a : option string) (b : string) : bool :=
  match a with
  | Some a => String.eqb a b
  | None => false
  end.

(** ** The handlers of [service/routes.py] *)

(** Utility function: check Content-Type *)
Definition check_content_type `{Serializer} (media_type : string) : View () :=
  content_type ← request_headers_get_content_type;
  if truthy content_type && opt_str_eqb content_type media_type then
    mret ()
  else
    abort status.HTTP_415_UNSUPPORTED_MEDIA_TYPE
          ("Content-Type must be " +:+ media_type).

(** POST /accounts *)
Definition create_accounts `{Serializer} : View Response :=
  check_content_type "application/json";;
  let account := Account.new in
  data ← request_get_json;
  account ← Account.deserialize account data;
  account ← Account.create account;
  let message := Account.serialize account in
  location_url ← url_for_get_account (Account.id account);
  mret (make_response (jsonify message) status.HTTP_201_CREATED
          [("Location", location_url)]).

(** GET /accounts *)
Definition list_accounts `{Serializer} : View Response :=
  accounts ← Account.all;
  let account_list := Account.serialize <$> accounts in
  mret (make_response (jsonify_list account_list) status.HTTP_200_OK []).

Definition not_found_message (account_id : Z) : string :=
  "Account with id [" +:+ pretty account_id +:+ "] could not be found.".

(** GET /accounts/<int:account_id> *)
Definition get_account `{Serializer} (account_id : Z) : View Response :=
  account ← Account.find account_id;
  match account with
  | None => abort status.HTTP_404_NOT_FOUND (not_found_message account_id)
  | Some account =>
      mret (make_response (jsonify (Account.serialize account))
              status.HTTP_200_OK [])
  end.

(** PUT /accounts/<int:account_id> *)
Definition update_account `{Serializer} (account_id : Z) : View Response :=
  account ← Account.find account_id;
  match account with
  | None => abort status.HTTP_404_NOT_FOUND (not_found_message account_id)
  | Some account =>
      check_content_type "application/json";;
      data ← request_get_json;
      account ← Account.deserialize account data;
      Account.update account;;
      mret (make_response (jsonify (Account.serialize account))
              status.HTTP_200_OK [])
  end.

(** DELETE /accounts/<int:account_id> *)
Definition delete_account `{Serializer} (account_id : Z) : View Response :=
  account ← Account.find account_id;
  match account with
  | Some account => Account.delete account
  | None => mret ()
  end;;
  mret (make_response (TextBody "") status.HTTP_204_NO_CONTENT []).

(** The sequence is ahead of every stored id, so the id it hands out
    next has never been used. *)
Definition sequence_ahead `{Serializer} (s : Store) : Prop :=
  ∀ i, is_Some (rows s !! i) → i < next_id s.

(** [needle] occurs in [hay]. *)
Definition contains (needle hay : string) : Prop :=
  ∃ pre post, hay = pre +:+ needle +:+ post.

(** ** The informational endpoints and the route table *)

(** GET /health: [jsonify(dict(status="OK"))] and the status, as the
    pair the source returns. *)
Definition health `{Serializer} : View (list (string * string) * Z) :=
  mret ([("status", "OK")], status.HTTP_200_OK).

(** GET /: [jsonify(name=..., version=...)] and the status. *)
Definition index `{Serializer} : View (list (string * string) * Z) :=
  mret ([("name", "Account REST API Service"); ("version", "1.0")],
        status.HTTP_200_OK).

Inductive Method := GET | POST | PUT | DELETE.

#[global] Instance Method_eq_dec : EqDecision Method.
Proof. solve_decision. Defined.

(** The view functions registered with [@app.route]. *)
Module endpoint.
Inductive t :=
  | health
  | index
  | create_accounts
  | list_accounts
  | get_account
  | update_account
  | delete_account.
End endpoint.

(** The URL rule each view function is registered under. *)
Definition rule (e : endpoint.t) : string :=
  match e with
  | endpoint.health => "/health"
  | endpoint.index => "/"
  | endpoint.create_accounts => "/accounts"
  | endpoint.list_accounts => "/accounts"
  | endpoint.get_account => "/accounts/<int:account_id>"
  | endpoint.update_account => "/accounts/<int:account_id>"
  | endpoint.delete_account => "/accounts/<int:account_id>"
  end.

(** The [methods=[...]] of each registration; a route registered without
    them answers GET. *)
Definition methods (e : endpoint.t) : list Method :=
  match e with
  | endpoint.health => [GET]
  | endpoint.index => [GET]
  | endpoint.create_accounts => [POST]
  | endpoint.list_accounts => [GET]
  | endpoint.get_account => [GET]
  | endpoint.update_account => [PUT]
  | endpoint.delete_account => [DELETE]
  end.

(** The view function of an endpoint, run to the status code of the
    response it returns; [account_id] is the converted path argument of
    the rules that have one. *)
Definition view_function `{Serializer} (e : endpoint.t) (account_id : Z) : View Z :=
  match e with
  | endpoint.health => r ← health; mret r.2
  | endpoint.index => r ← index; mret r.2
  | endpoint.create_accounts => r ← create_accounts; mret (status_code r)
  | endpoint.list_accounts => r ← list_accounts; mret (status_code r)
  | endpoint.get_account => r ← get_account account_id; mret (status_code r)
  | endpoint.update_account =>
      r ← update_account account_id; mret (status_code r)
  | endpoint.delete_account =>
      r ← delete_account account_id; mret (status_code r)
  end.

(** One request served by an endpoint: the status the client sees and
    the state the request leaves. *)
Definition serve `{Serializer} (e : endpoint.t) (account_id : Z)
    (req : Request) (w : World) : Z * World :=
  match view_function e account_id req w with
  | (Return code, w') => (code, w')
  | (Raise err, w') => (error_status err, w')
  end.

(** The persistence operations that only read. *)
Definition is_read (c : Call) : bool :=
  match c with
  | CallFind _ | CallAll => true
  | CallCreate | CallUpdate _ | CallDelete _ => false
  end.

(** ** A concrete serializer and sample requests

    JSON objects with string values; a body is a valid Account when it
    has a ["name"], and a client-supplied ["id"] is dropped. *)
Definition sample_serializer : Serializer := {|
  Json := list (string * string);
  Fields := list (string * string);
  blank := [];
  serialize_fields := λ i f, ("id", from_option pretty "null" i) :: f;
  deserialize_fields := λ j,
    if bool_decide ("name" ∈ j.*1)
    then Some (filter (λ kv, kv.1 ≠ "id") j)
    else None;
|}.

Definition empty_world `{Serializer} : World :=
  {| db := {| rows := ∅; next_id := 1 |}; calls := [] |}.

Section samples.
#[local] Existing Instance sample_serializer.

Definition alice_post : Request :=
  {| content_type_header := Some "application/json";
     json_body := Some [("name", "Alice")];
     external_base := "http://localhost" |}.

Definition alice_text_plain : Request :=
  {| content_type_header := Some "text/plain";
     json_body := Some [("name", "Alice")];
     external_base := "http://localhost" |}.

Definition bare_get : Request :=
  {| content_type_header := None;
     json_body := None;
     external_base := "http://localhost" |}.

(** The world after Alice has been created in the empty one. *)
Definition alice_world : World :=
  (create_accounts alice_post empty_world).2.

Definition bob_post : Request :=
  {| content_type_header := Some "application/json";
     json_body := Some [("name", "Bob")];
     external_base := "http://localhost" |}.

Definition alicia_put : Request :=
  {| content_type_header := Some "application/json";
     json_body := Some [("name", "Alicia"); ("email", "alicia@example.com")];
     external_base := "http://localhost" |}.

(** The world after Bob has been created next to Alice. *)
Definition alice_bob_world : World :=
  (create_accounts bob_post alice_world).2.

End samples.

(** ** How the handlers run *)

Ltac run_view :=
  unfold mbind, mret, View_bind, View_ret, view_bind, view_ret,
    abort, raise, ask, persistence in *; simpl in *.

Section handlers.
Context `{Serializer}.

Implicit Types (req : Request) (w : World) (account_id : Z).

Lemma json_declared (ct : option string) :
  truthy ct && opt_str_eqb ct "application/json" = true
  ↔ ct = Some "application/json".
Proof.
  destruct ct as [ct|]; simpl.
  - rewrite andb_true_iff, String.eqb_eq. split.
    + intros [_ ->]. reflexivity.
    + intros [= ->]. split; reflexivity.
  - split; discriminate.
Qed.

Lemma json_not_declared (ct : option string) :
  ct ≠ Some "application/json" →
  truthy ct && opt_str_eqb ct "application/json" = false.
Proof.
  intros Hne. apply not_true_is_false. rewrite json_declared. exact Hne.
Qed.

Lemma check_content_type_accepts req w :
  content_type_header req = Some "application/json" →
  check_content_type "application/json" req w = (Return (), w).
Proof.
  intros Hct. unfold check_content_type, request_headers_get_content_type.
  run_view. rewrite Hct. reflexivity.
Qed.

Lemma check_content_type_rejects req w :
  content_type_header req ≠ Some "application/json" →
  check_content_type "application/json" req w =
    (Raise (HTTPException status.HTTP_415_UNSUPPORTED_MEDIA_TYPE
              "Content-Type must be application/json"), w).
Proof.
  intros Hct. unfold check_content_type, request_headers_get_content_type.
  run_view. rewrite (json_not_declared _ Hct). reflexivity.
Qed.

Lemma find_run account_id req w :
  Account.find account_id req w =
    (Return (Account.stored (db w) account_id),
     {| db := db w; calls := calls w ++ [CallFind account_id] |}).
Proof. reflexivity. Qed.

(** What [create_accounts] does, case by case. *)
Lemma create_accounts_run req w :
  create_accounts req w =
    if decide (content_type_header req = Some "application/json") then
      match json_body req with
      | None =>
          (Raise (HTTPException status.HTTP_400_BAD_REQUEST
                    "Failed to decode JSON object"), w)
      | Some data =>
          match deserialize_fields data with
          | None => (Raise DataValidationError, w)
          | Some f =>
              let new_id := next_id (db w) in
              (Return (make_response
                         (jsonify (serialize_fields (Some new_id) f))
                         status.HTTP_201_CREATED
                         [("Location", external_base req +:+ get_account_path new_id)]),
               {| db := {| rows := <[new_id := f]> (rows (db w));
                           next_id := new_id + 1 |};
                  calls := calls w ++ [CallCreate] |})
          end
      end
    else
      (Raise (HTTPException status.HTTP_415_UNSUPPORTED_MEDIA_TYPE
                "Content-Type must be application/json"), w).
Proof.
  unfold create_accounts. case_decide as Hct.
  - unfold mbind at 1. unfold View_bind, view_bind.
    rewrite (check_content_type_accepts _ _ Hct).
    unfold request_get_json, Account.deserialize, Account.create,
      url_for_get_account.
    run_view. destruct (json_body req) as [data|]; [|reflexivity].
    simpl. destruct (deserialize_fields data) as [f|]; reflexivity.
  - unfold mbind at 1. unfold View_bind, view_bind.
    rewrite (check_content_type_rejects _ _ Hct). reflexivity.
Qed.

(** What [update_account] does, case by case. *)
Lemma update_account_run account_id req w :
  update_account account_id req w =
    let w1 := {| db := db w; calls := calls w ++ [CallFind account_id] |} in
    match rows (db w) !! account_id with
    | None =>
        (Raise (HTTPException status.HTTP_404_NOT_FOUND
                  (not_found_message account_id)), w1)
    | Some _ =>
        if decide (content_type_header req = Some "application/json") then
          match json_body req with
          | None =>
              (Raise (HTTPException status.HTTP_400_BAD_REQUEST
                        "Failed to decode JSON object"), w1)
          | Some data =>
              match deserialize_fields data with
              | None => (Raise DataValidationError, w1)
              | Some f =>
                  (Return (make_response
                             (jsonify (serialize_fields (Some account_id) f))
                             status.HTTP_200_OK []),
                   {| db := {| rows := <[account_id := f]> (rows (db w));
                               next_id := next_id (db w) |};
                      calls := calls w ++
                        [CallFind account_id; CallUpdate (Some account_id)] |})
              end
          end
        else
          (Raise (HTTPException status.HTTP_415_UNSUPPORTED_MEDIA_TYPE
                    "Content-Type must be application/json"), w1)
    end.
Proof.
  unfold update_account. unfold mbind at 1. unfold View_bind, view_bind.
  rewrite find_run. unfold Account.stored. cbv zeta.
  destruct (rows (db w) !! account_id) as [old|] eqn:Hold; simpl; [|reflexivity].
  case_decide as Hct.
  - unfold mbind at 1. unfold View_bind, view_bind.
    rewrite (check_content_type_accepts _ _ Hct).
    unfold request_get_json, Account.deserialize, Account.update.
    run_view. destruct (json_body req) as [data|]; [|reflexivity].
    simpl. destruct (deserialize_fields data) as [f|]; [|reflexivity].
    simpl. rewrite <- (assoc_L (++)). simpl.
    do 3 f_equal. apply map_eq. intros i.
    rewrite lookup_alter, lookup_insert.
    destruct (decide (account_id = i)) as [->|]; [by rewrite Hold|done].
  - unfold mbind at 1. unfold View_bind, view_bind.
    rewrite (check_content_type_rejects _ _ Hct). reflexivity.
Qed.

(** What [get_account] does. *)
Lemma get_account_run account_id req w :
  get_account account_id req w =
    (match rows (db w) !! account_id with
     | Some f =>
         Return (make_response
                   (jsonify (serialize_fields (Some account_id) f))
                   status.HTTP_200_OK [])
     | None =>
         Raise (HTTPException status.HTTP_404_NOT_FOUND
                  (not_found_message account_id))
     end,
     {| db := db w; calls := calls w ++ [CallFind account_id] |}).
Proof.
  unfold get_account. unfold mbind at 1. unfold View_bind, view_bind.
  rewrite find_run. unfold Account.stored.
  destruct (rows (db w) !! account_id); reflexivity.
Qed.

(** What [list_accounts] does. *)
Lemma list_accounts_run req w :
  list_accounts req w =
    (Return (make_response
               (jsonify_list (Account.serialize <$> Account.listing (db w)))
               status.HTTP_200_OK []),
     {| db := db w; calls := calls w ++ [CallAll] |}).
Proof. reflexivity. Qed.

(** What [delete_account] does. *)
Lemma delete_account_run account_id req w :
  delete_account account_id req w =
    (Return (make_response (TextBody "") status.HTTP_204_NO_CONTENT []),
     match rows (db w) !! account_id with
     | Some _ =>
         {| db := {| rows := delete account_id (rows (db w));
                     next_id := next_id (db w) |};
            calls := calls w ++
              [CallFind account_id; CallDelete (Some account_id)] |}
     | None => {| db := db w; calls := calls w ++ [CallFind account_id] |}
     end).
Proof.
  unfold delete_account, Account.delete. run_view. unfold Account.stored.
  destruct (rows (db w) !! account_id); simpl; [|reflexivity].
  by rewrite <- (assoc_L (++)).
Qed.

End handlers.

(** ** The persistence model *)

Section persistence.
Context `{Serializer}.

Lemma elem_of_listing (s : Store) (a : Account.t) :
  a ∈ Account.listing s ↔
  ∃ i f, a = {| Account.id := Some i; Account.fields := f |}
         ∧ rows s !! i = Some f.
Proof.
  unfold Account.listing. rewrite list_elem_of_fmap. split.
  - intros [[i f] [-> Hin]]. exists i, f. split; [reflexivity|].
    by apply elem_of_map_to_list.
  - intros (i & f & -> & Hin). exists (i, f). split; [reflexivity|].
    by apply elem_of_map_to_list.
Qed.

Lemma length_listing (s : Store) :
  length (Account.listing s) = size (rows s).
Proof. unfold Account.listing. by rewrite length_fmap, length_map_to_list. Qed.

Lemma NoDup_listing_ids (s : Store) :
  NoDup (Account.id <$> Account.listing s).
Proof.
  unfold Account.listing. rewrite <- list_fmap_compose.
  change (Account.id ∘ Account.of_row) with (Some ∘ (fst : Z * Fields → Z)).
  rewrite list_fmap_compose. apply (NoDup_fmap_2 Some).
  apply NoDup_fst_map_to_list.
Qed.

Lemma listing_empty (s : Store) : rows s = ∅ → Account.listing s = [].
Proof. unfold Account.listing. intros ->. by rewrite map_to_list_empty. Qed.

(** An id the sequence has not reached is not stored. *)
Lemma sequence_ahead_fresh (s : Store) :
  sequence_ahead s → rows s !! next_id s = None.
Proof.
  intros Hs. destruct (rows s !! next_id s) eqn:E; [|reflexivity].
  specialize (Hs (next_id s) (mk_is_Some _ _ E)). lia.
Qed.

Lemma sequence_ahead_insert (s : Store) (f : Fields) :
  sequence_ahead s →
  sequence_ahead {| rows := <[next_id s := f]> (rows s);
                    next_id := next_id s + 1 |}.
Proof.
  intros Hs i. simpl. rewrite lookup_insert. case_decide as Hi.
  - subst. lia.
  - intros Hi'. specialize (Hs i Hi'). lia.
Qed.

End persistence.

(** The sequence stays ahead of the stored ids across every handler, and
    it is in the empty store. *)
Lemma sequence_ahead_empty `{Serializer} : sequence_ahead (db empty_world).
Proof. intros i. simpl. rewrite lookup_empty. by intros [? ?]. Qed.

Lemma sequence_ahead_preserved `{Serializer}
    (account_id : Z) (req : Request) (w : World) :
  sequence_ahead (db w) →
  sequence_ahead (db (create_accounts req w).2)
  ∧ sequence_ahead (db (list_accounts req w).2)
  ∧ sequence_ahead (db (get_account account_id req w).2)
  ∧ sequence_ahead (db (update_account account_id req w).2)
  ∧ sequence_ahead (db (delete_account account_id req w).2).
Proof.
  intros Hs. repeat split.
  - rewrite create_accounts_run. case_decide; [|done].
    destruct (json_body req) as [data|]; [|done].
    destruct (deserialize_fields data); [|done].
    by apply sequence_ahead_insert.
  - done.
  - by rewrite get_account_run.
  - rewrite update_account_run. cbv zeta.
    destruct (rows (db w) !! account_id) as [old|] eqn:Hold; [|done].
    case_decide; [|done].
    destruct (json_body req) as [data|]; [|done].
    destruct (deserialize_fields data); [|done].
    intros i. simpl. rewrite lookup_insert. case_decide as Hi.
    + subst. intros _. apply Hs. by rewrite Hold.
    + apply Hs.
  - rewrite delete_account_run.
    destruct (rows (db w) !! account_id); [|done].
    intros i. simpl. rewrite lookup_delete. case_decide; [by intros [? ?]|].
    apply Hs.
Qed.

(** ** Properties of the handlers *)

Section claims.
Context `{Serializer}.

Implicit Types (req : Request) (w : World) (account_id : Z).

(** C1 (as amended): a Create request whose declared Content-Type is not
    exactly "application/json" (a missing header included) fails with 415
    and the message "Content-Type must be application/json", whatever the
    body; an Update request does the same when its path id matches a
    persisted Account. *)
Theorem bad_content_type_is_415 req w account_id :
  content_type_header req ≠ Some "application/json" →
  create_accounts req w =
    (Raise (HTTPException 415 "Content-Type must be application/json"), w)
  ∧ (is_Some (rows (db w) !! account_id) →
     update_account account_id req w =
       (Raise (HTTPException 415 "Content-Type must be application/json"),
        {| db := db w; calls := calls w ++ [CallFind account_id] |})).
Proof.
  intros Hct. split.
  - rewrite create_accounts_run. by rewrite decide_False.
  - intros [old Hold]. rewrite update_account_run. cbv zeta.
    rewrite Hold. by rewrite decide_False.
Qed.

(** C2: an Update whose path id matches no persisted Account fails with
    404 whatever the Content-Type and the body are; the store is left as
    it was and the only persistence operation invoked is the lookup. *)
Theorem update_unknown_id_is_404 req w account_id :
  rows (db w) !! account_id = None →
  update_account account_id req w =
    (Raise (HTTPException 404 (not_found_message account_id)),
     {| db := db w; calls := calls w ++ [CallFind account_id] |}).
Proof.
  intros Hnone. rewrite update_account_run. cbv zeta. by rewrite Hnone.
Qed.

(** C3: an Update either answers 200, having replaced the fields of the
    addressed record by those read from the body (same id, other records
    untouched), or fails with 404, 415 or 400 having invoked no
    persistence operation but the lookup, the store being as before. *)
Theorem update_account_atomic req w account_id :
  (∃ old data f,
      rows (db w) !! account_id = Some old
      ∧ content_type_header req = Some "application/json"
      ∧ json_body req = Some data
      ∧ deserialize_fields data = Some f
      ∧ update_account account_id req w =
          (Return (make_response
                     (jsonify (serialize_fields (Some account_id) f)) 200 []),
           {| db := {| rows := <[account_id := f]> (rows (db w));
                       next_id := next_id (db w) |};
              calls := calls w ++
                [CallFind account_id; CallUpdate (Some account_id)] |}))
  ∨ (∃ e,
      update_account account_id req w =
        (Raise e, {| db := db w; calls := calls w ++ [CallFind account_id] |})
      ∧ (error_status e = 404 ∨ error_status e = 415 ∨ error_status e = 400)).
Proof.
  rewrite update_account_run. cbv zeta.
  destruct (rows (db w) !! account_id) as [old|] eqn:Hold.
  - case_decide as Hct.
    + destruct (json_body req) as [data|] eqn:Hbody.
      * destruct (deserialize_fields data) as [f|] eqn:Hf.
        -- left. by exists old, data, f.
        -- right. eexists. split; [reflexivity|]. auto.
      * right. eexists. split; [reflexivity|]. auto.
    + right. eexists. split; [reflexivity|]. auto.
  - right. eexists. split; [reflexivity|]. auto.
Qed.

(** C4: Delete answers 204 with an empty body for every id, stored or
    not; afterwards no record has that id, the other records are
    untouched, a second Delete of the same id answers 204 again and
    changes nothing, and List shows no account with that id. *)
Theorem delete_account_idempotent req w account_id :
  ∃ w1,
    delete_account account_id req w =
      (Return (make_response (TextBody "") 204 []), w1)
    ∧ rows (db w1) = delete account_id (rows (db w))
    ∧ rows (db w1) !! account_id = None
    ∧ (∀ req2, ∃ w2,
         delete_account account_id req2 w1 =
           (Return (make_response (TextBody "") 204 []), w2)
         ∧ db w2 = db w1)
    ∧ (∀ req3, ∃ accounts w3,
         list_accounts req3 w1 =
           (Return (make_response
                      (jsonify_list (Account.serialize <$> accounts)) 200 []),
            w3)
         ∧ ∀ a, a ∈ accounts → Account.id a ≠ Some account_id).
Proof.
  eexists. split; [apply delete_account_run|].
  assert (Hrows :
    rows (db match rows (db w) !! account_id with
             | Some _ =>
                 {| db := {| rows := delete account_id (rows (db w));
                             next_id := next_id (db w) |};
                    calls := calls w ++
                      [CallFind account_id; CallDelete (Some account_id)] |}
             | None =>
                 {| db := db w; calls := calls w ++ [CallFind account_id] |}
             end) = delete account_id (rows (db w))).
  { destruct (rows (db w) !! account_id) eqn:E; simpl; [reflexivity|].
    symmetry. by apply delete_id. }
  split; [exact Hrows|].
  assert (Hgone : ∀ w1 : World,
    rows (db w1) = delete account_id (rows (db w)) →
    rows (db w1) !! account_id = None).
  { intros w1 ->. apply lookup_delete_eq. }
  split; [by apply Hgone|].
  split.
  - intros req2. eexists. split; [apply delete_account_run|].
    by rewrite (Hgone _ Hrows).
  - intros req3. eexists _, _. split; [apply list_accounts_run|].
    simpl. intros a (i & f & -> & Hi)%elem_of_listing [= ->].
    rewrite (Hgone _ Hrows) in Hi. discriminate.
Qed.

(** C5: a Create that declares "application/json" and whose body
    deserializes into a valid Account persists exactly one new record,
    under the id the sequence assigns, which was not in use; it answers
    201 with the serialized created Account and a Location header that
    is the URL of the Read endpoint for the new id. *)
Theorem create_accounts_created req w data f :
  content_type_header req = Some "application/json" →
  json_body req = Some data →
  deserialize_fields data = Some f →
  sequence_ahead (db w) →
  ∃ new_id w',
    create_accounts req w =
      (Return (make_response
                 (jsonify (Account.serialize
                             {| Account.id := Some new_id;
                                Account.fields := f |}))
                 201
                 [("Location", external_base req +:+ get_account_path new_id)]),
       w')
    ∧ rows (db w) !! new_id = None
    ∧ rows (db w') = <[new_id := f]> (rows (db w))
    ∧ size (rows (db w')) = S (size (rows (db w)))
    ∧ calls w' = (calls w ++ [CallCreate])%list
    ∧ sequence_ahead (db w').
Proof.
  intros Hct Hbody Hf Hs. exists (next_id (db w)). eexists.
  rewrite create_accounts_run, decide_True, Hbody, Hf by done. cbv zeta.
  split; [reflexivity|]. simpl.
  pose proof (sequence_ahead_fresh _ Hs) as Hfresh.
  split; [exact Hfresh|]. split; [reflexivity|].
  split; [by apply map_size_insert_None|].
  split; [reflexivity|]. by apply sequence_ahead_insert.
Qed.

(** C6: a Read of an id that matches no Account fails with 404 and a
    message that contains the id in decimal; otherwise it answers 200
    with the serialized Account. *)
Theorem get_account_found_or_404 req w account_id :
  (get_account account_id req w).1 =
    match rows (db w) !! account_id with
    | Some f =>
        Return (make_response
                  (jsonify (Account.serialize
                              {| Account.id := Some account_id;
                                 Account.fields := f |})) 200 [])
    | None => Raise (HTTPException 404 (not_found_message account_id))
    end
  ∧ contains (pretty account_id) (not_found_message account_id).
Proof.
  split.
  - by rewrite get_account_run.
  - by exists "Account with id [", "] could not be found.".
Qed.

(** C7: after a successful Create, whose body and Location header carry
    the new id, a Read of that id run on the state Create left answers
    200 with a body equal to the body of the Create response. *)
Theorem create_then_read req w resp w' :
  create_accounts req w = (Return resp, w') →
  ∃ new_id f,
    body resp = jsonify (Account.serialize {| Account.id := Some new_id;
                                              Account.fields := f |})
    ∧ headers resp =
        [("Location", external_base req +:+ get_account_path new_id)]
    ∧ ∀ req2,
        (get_account new_id req2 w').1 =
          Return (make_response (body resp) 200 []).
Proof.
  rewrite create_accounts_run. case_decide; [|discriminate].
  destruct (json_body req) as [data|]; [|discriminate].
  destruct (deserialize_fields data) as [f|]; [|discriminate].
  cbv zeta. intros [= <- <-]. exists (next_id (db w)), f.
  split; [reflexivity|]. split; [reflexivity|]. intros req2.
  rewrite get_account_run. simpl. by rewrite lookup_insert_eq.
Qed.

(** C8: List always answers 200 with the serializations of the persisted
    Accounts: every record appears, nothing else does, there is one
    element per record, and the sequence is empty when there is no
    record. *)
Theorem list_accounts_all req w :
  ∃ accounts,
    (list_accounts req w).1 =
      Return (make_response
                (jsonify_list (Account.serialize <$> accounts)) 200 [])
    ∧ (∀ a, a ∈ accounts ↔
            ∃ i f, a = {| Account.id := Some i; Account.fields := f |}
                   ∧ rows (db w) !! i = Some f)
    ∧ length (Account.serialize <$> accounts) = size (rows (db w))
    ∧ NoDup (Account.id <$> accounts)
    ∧ (rows (db w) = ∅ → accounts = []).
Proof.
  exists (Account.listing (db w)). split; [by rewrite list_accounts_run|].
  split; [apply elem_of_listing|].
  split; [by rewrite length_fmap, length_listing|].
  split; [apply NoDup_listing_ids|]. apply listing_empty.
Qed.

(** C9: a Create that fails has failed with 415 or 400, and it leaves the
    store as it was, having invoked no persistence operation at all. *)
Theorem create_accounts_failure_atomic req w e w' :
  create_accounts req w = (Raise e, w') →
  (error_status e = 415 ∨ error_status e = 400) ∧ w' = w.
Proof.
  rewrite create_accounts_run. case_decide.
  - destruct (json_body req) as [data|].
    + destruct (deserialize_fields data) as [f|]; [discriminate|].
      intros [= <- <-]. auto.
    + intros [= <- <-]. auto.
  - intros [= <- <-]. auto.
Qed.

(** C10: Read invokes find-by-id only and List invokes find-all only;
    neither changes the store. *)
Theorem read_and_list_pure req w account_id :
  (get_account account_id req w).2 =
    {| db := db w; calls := calls w ++ [CallFind account_id] |}
  ∧ (list_accounts req w).2 =
    {| db := db w; calls := calls w ++ [CallAll] |}.
Proof.
  split; [by rewrite get_account_run | by rewrite list_accounts_run].
Qed.

End claims.

(** ** The handlers on the sample requests *)

Section scenarios.
#[local] Existing Instance sample_serializer.

(** POST /accounts with {"name":"Alice"} and Content-Type
    application/json. *)
Example post_alice :
  (create_accounts alice_post empty_world).1 =
    Return {| body := JsonBody [("id", "1"); ("name", "Alice")];
              status_code := 201;
              headers := [("Location", "http://localhost/accounts/1")] |}.
Proof. vm_compute. reflexivity. Qed.

(** GET /accounts/999999, never created. *)
Example get_999999 :
  (get_account 999999 bare_get alice_world).1 =
    Raise (HTTPException 404
             "Account with id [999999] could not be found.").
Proof. vm_compute. reflexivity. Qed.

(** PUT /accounts/1 with Content-Type text/plain. *)
Example put_text_plain :
  outcome_status (update_account 1 alice_text_plain alice_world).1 = 415.
Proof. vm_compute. reflexivity. Qed.

(** DELETE /accounts/1, then GET /accounts/1. *)
Example delete_then_get :
  outcome_status (delete_account 1 bare_get alice_world).1 = 204
  ∧ outcome_status
      (get_account 1 bare_get (delete_account 1 bare_get alice_world).2).1
    = 404.
Proof. split; vm_compute; reflexivity. Qed.

(** GET /accounts with zero records. *)
Example list_nothing :
  (list_accounts bare_get empty_world).1 =
    Return {| body := JsonList []; status_code := 200; headers := [] |}.
Proof. vm_compute. reflexivity. Qed.

(** An id given by the client is not honoured. *)
Example post_with_id :
  (create_accounts
     {| content_type_header := Some "application/json";
        json_body := Some [("id", "42"); ("name", "Bob")];
        external_base := "http://localhost" |} alice_world).1 =
    Return {| body := JsonBody [("id", "2"); ("name", "Bob")];
              status_code := 201;
              headers := [("Location", "http://localhost/accounts/2")] |}.
Proof. vm_compute. reflexivity. Qed.

(** C1 (as stated) fails: a PUT that declares text/plain on an id that
    matches no Account is answered 404, not 415. *)
Lemma put_text_plain_unknown_id_is_404 :
  content_type_header alice_text_plain ≠ Some "application/json"
  ∧ rows (db alice_world) !! 7 = None
  ∧ outcome_status (update_account 7 alice_text_plain alice_world).1 = 404
  ∧ outcome_status (update_account 7 alice_text_plain alice_world).1 ≠ 415.
Proof.
  split; [discriminate|]. split; [vm_compute; reflexivity|].
  split; [vm_compute; reflexivity|]. vm_compute. discriminate.
Qed.

Lemma bad_content_type_is_415_witness :
  content_type_header alice_text_plain ≠ Some "application/json"
  ∧ is_Some (rows (db alice_world) !! 1)
  ∧ create_accounts alice_text_plain alice_world =
      (Raise (HTTPException 415 "Content-Type must be application/json"),
       alice_world)
  ∧ update_account 1 alice_text_plain alice_world =
      (Raise (HTTPException 415 "Content-Type must be application/json"),
       {| db := db alice_world;
          calls := calls alice_world ++ [CallFind 1] |}).
Proof.
  assert (Hct : content_type_header alice_text_plain
                ≠ Some "application/json") by discriminate.
  assert (Hid : is_Some (rows (db alice_world) !! 1))
    by (vm_compute; eexists; reflexivity).
  destruct (bad_content_type_is_415 alice_text_plain alice_world 1 Hct)
    as [Hcreate Hupdate].
  split; [exact Hct|]. split; [exact Hid|].
  split; [exact Hcreate | exact (Hupdate Hid)].
Defined.

Lemma update_unknown_id_is_404_witness :
  rows (db alice_world) !! 7 = None
  ∧ update_account 7 alice_post alice_world =
      (Raise (HTTPException 404 (not_found_message 7)),
       {| db := db alice_world;
          calls := calls alice_world ++ [CallFind 7] |}).
Proof.
  assert (Hnone : rows (db alice_world) !! 7 = None)
    by (vm_compute; reflexivity).
  split; [exact Hnone|].
  exact (update_unknown_id_is_404 alice_post alice_world 7 Hnone).
Defined.

Lemma create_accounts_created_witness :
  ∃ new_id w',
    create_accounts alice_post empty_world =
      (Return (make_response
                 (jsonify (Account.serialize
                             {| Account.id := Some new_id;
                                Account.fields := [("name", "Alice")] |}))
                 201
                 [("Location",
                   external_base alice_post +:+ get_account_path new_id)]),
       w')
    ∧ rows (db empty_world) !! new_id = None
    ∧ rows (db w') = <[new_id := [("name", "Alice")]]> (rows (db empty_world))
    ∧ size (rows (db w')) = S (size (rows (db empty_world)))
    ∧ calls w' = (calls empty_world ++ [CallCreate])%list
    ∧ sequence_ahead (db w').
Proof.
  apply (create_accounts_created alice_post empty_world
           [("name", "Alice")] [("name", "Alice")]).
  - reflexivity.
  - reflexivity.
  - vm_compute. reflexivity.
  - apply sequence_ahead_empty.
Defined.

Lemma create_then_read_witness :
  ∃ new_id f,
    @JsonBody sample_serializer [("id", "1"); ("name", "Alice")] =
      jsonify (Account.serialize {| Account.id := Some new_id;
                                    Account.fields := f |})
    ∧ [("Location", "http://localhost/accounts/1")] =
      [("Location", external_base alice_post +:+ get_account_path new_id)]
    ∧ ∀ req2,
        (get_account new_id req2 alice_world).1 =
          Return (make_response
                    (@JsonBody sample_serializer
                       [("id", "1"); ("name", "Alice")]) 200 []).
Proof.
  apply (create_then_read alice_post empty_world
           {| body := @JsonBody sample_serializer
                        [("id", "1"); ("name", "Alice")];
              status_code := 201;
              headers := [("Location", "http://localhost/accounts/1")] |}
           alice_world).
  vm_compute. reflexivity.
Defined.

Lemma create_accounts_failure_atomic_witness :
  create_accounts alice_text_plain alice_world =
    (Raise (HTTPException 415 "Content-Type must be application/json"),
     alice_world)
  ∧ (error_status (HTTPException 415 "Content-Type must be application/json")
       = 415
     ∨ error_status (HTTPException 415 "Content-Type must be application/json")
       = 400)
  ∧ alice_world = alice_world.
Proof.
  assert (Hfails : create_accounts alice_text_plain alice_world =
    (Raise (HTTPException 415 "Content-Type must be application/json"),
     alice_world)) by (vm_compute; reflexivity).
  split; [exact Hfails|].
  exact (create_accounts_failure_atomic alice_text_plain alice_world _ _ Hfails).
Defined.

End scenarios.

(** ** Further properties of the handlers *)

Ltac not_registered :=
  lazymatch goal with
  | H : ?m ∈ [_] |- _ => by apply list_elem_of_singleton in H
  | H : ?m ∉ [?m] |- _ => by destruct H; apply list_elem_of_singleton
  end.

Section routes.
Context `{Serializer}.

Implicit Types (req : Request) (w : World) (account_id : Z).

Lemma serve_create_accounts account_id req w :
  serve endpoint.create_accounts account_id req w =
    (outcome_status (create_accounts req w).1, (create_accounts req w).2).
Proof.
  unfold serve, view_function. run_view.
  by destruct (create_accounts req w) as [[r|e] w'].
Qed.

Lemma serve_list_accounts account_id req w :
  serve endpoint.list_accounts account_id req w =
    (outcome_status (list_accounts req w).1, (list_accounts req w).2).
Proof. reflexivity. Qed.

Lemma serve_get_account account_id req w :
  serve endpoint.get_account account_id req w =
    (outcome_status (get_account account_id req w).1,
     (get_account account_id req w).2).
Proof.
  unfold serve, view_function. run_view.
  by destruct (get_account account_id req w) as [[r|e] w'].
Qed.

Lemma serve_update_account account_id req w :
  serve endpoint.update_account account_id req w =
    (outcome_status (update_account account_id req w).1,
     (update_account account_id req w).2).
Proof.
  unfold serve, view_function. run_view.
  by destruct (update_account account_id req w) as [[r|e] w'].
Qed.

Lemma serve_delete_account account_id req w :
  serve endpoint.delete_account account_id req w =
    (outcome_status (delete_account account_id req w).1,
     (delete_account account_id req w).2).
Proof.
  unfold serve, view_function. run_view.
  by destruct (delete_account account_id req w) as [[r|e] w'].
Qed.

(** X1: [check_content_type] lets a request through exactly when the
    declared Content-Type is the expected media type and is not the empty
    string; otherwise it aborts with 415 and a message naming the
    expected type.  Either way the state is untouched. *)
Theorem check_content_type_exact (media_type : string) req w :
  check_content_type media_type req w =
    if decide (content_type_header req = Some media_type ∧ media_type ≠ "")
    then (Return (), w)
    else (Raise (HTTPException 415 ("Content-Type must be " +:+ media_type)),
          w).
Proof.
  unfold check_content_type, request_headers_get_content_type.
  case_decide as Hd; run_view.
  - destruct Hd as [-> Hne]. simpl. rewrite String.eqb_refl.
    destruct (String.eqb_spec media_type "") as [->|_]; [done|reflexivity].
  - destruct (content_type_header req) as [ct|]; simpl; [|reflexivity].
    destruct (String.eqb_spec ct media_type) as [->|Hne].
    + destruct (String.eqb_spec media_type "") as [->|Hne]; [reflexivity|].
      destruct Hd. by split.
    + by rewrite andb_false_r.
Qed.

(** X2: every view function registered for GET (health, index, List and
    Read) leaves the store as it was and invokes no persistence
    operation other than find-by-id and find-all. *)
Theorem get_routes_are_safe (e : endpoint.t) account_id req w :
  GET ∈ methods e →
  db (serve e account_id req w).2 = db w
  ∧ ∃ cs, calls (serve e account_id req w).2 = (calls w ++ cs)%list
          ∧ forallb is_read cs = true.
Proof.
  intros Hget. destruct e; simpl in Hget; try not_registered.
  - split; [reflexivity|]. exists []. by rewrite (right_id_L [] (++)).
  - split; [reflexivity|]. exists []. by rewrite (right_id_L [] (++)).
  - rewrite serve_list_accounts, list_accounts_run. simpl.
    split; [reflexivity|]. by exists [CallAll].
  - rewrite serve_get_account, get_account_run. simpl.
    split; [reflexivity|]. by exists [CallFind account_id].
Qed.

(** X3: every view function not registered for POST is idempotent: the
    same request served a second time gets the same status, and leaves
    the store as the first time left it. *)
Theorem non_post_routes_idempotent (e : endpoint.t) account_id req w :
  POST ∉ methods e →
  (serve e account_id req (serve e account_id req w).2).1
    = (serve e account_id req w).1
  ∧ db (serve e account_id req (serve e account_id req w).2).2
    = db (serve e account_id req w).2.
Proof.
  intros Hpost. destruct e; simpl in Hpost; try not_registered.
  - done.
  - done.
  - done.
  - rewrite !serve_get_account, !get_account_run. done.
  - rewrite (serve_update_account account_id req w).
    rewrite (update_account_run account_id req w). cbv zeta.
    destruct (rows (db w) !! account_id) as [old|] eqn:Hold;
      [destruct (decide (content_type_header req = Some "application/json"))
         as [Hct|Hct];
       [destruct (json_body req) as [data|] eqn:Hbody;
        [destruct (deserialize_fields data) as [f|] eqn:Hf|]|]|];
      cbn [fst snd];
      rewrite serve_update_account, update_account_run; cbv zeta;
      cbn [db rows next_id calls fst snd].
    + rewrite lookup_insert_eq, decide_True, Hbody, Hf by done.
      cbn [fst snd db rows next_id calls outcome_status]. split; [done|].
      by rewrite insert_insert_eq.
    + by rewrite Hold, decide_True, Hbody, Hf.
    + by rewrite Hold, decide_True, Hbody.
    + by rewrite Hold, decide_False.
    + by rewrite Hold.
  - rewrite !serve_delete_account, !delete_account_run.
    destruct (rows (db w) !! account_id) as [old|] eqn:Hold; simpl.
    + by rewrite lookup_delete_eq.
    + by rewrite Hold.
Qed.

(** X4: the statuses each view function can answer with: health, index
    and List only 200, Create 201, 400 or 415, Read 200 or 404, Update
    200, 400, 404 or 415, Delete only 204.  No request is answered with
    a server error. *)
Theorem statuses_served (e : endpoint.t) account_id req w :
  (serve e account_id req w).1 ∈
    match e with
    | endpoint.health | endpoint.index | endpoint.list_accounts => [200]
    | endpoint.create_accounts => [201; 400; 415]
    | endpoint.get_account => [200; 404]
    | endpoint.update_account => [200; 400; 404; 415]
    | endpoint.delete_account => [204]
    end.
Proof.
  destruct e.
  - simpl. set_solver.
  - simpl. set_solver.
  - rewrite serve_create_accounts, create_accounts_run.
    case_decide; [|simpl; set_solver].
    destruct (json_body req) as [data|]; [|simpl; set_solver].
    destruct (deserialize_fields data); simpl; set_solver.
  - simpl. set_solver.
  - rewrite serve_get_account, get_account_run.
    destruct (rows (db w) !! account_id); simpl; set_solver.
  - rewrite serve_update_account, update_account_run. cbv zeta.
    destruct (rows (db w) !! account_id); [|simpl; set_solver].
    case_decide; [|simpl; set_solver].
    destruct (json_body req) as [data|]; [|simpl; set_solver].
    destruct (deserialize_fields data); simpl; set_solver.
  - rewrite serve_delete_account, delete_account_run. simpl. set_solver.
Qed.

(** X5: only a view function registered for POST can make an id come
    into existence, and only one registered for DELETE can make an id
    go away; in particular Update never creates the record it
    addresses. *)
Theorem ids_added_by_post_removed_by_delete
    (e : endpoint.t) account_id req w (i : Z) :
  (POST ∉ methods e →
   is_Some (rows (db (serve e account_id req w).2) !! i) →
   is_Some (rows (db w) !! i))
  ∧ (DELETE ∉ methods e →
     is_Some (rows (db w) !! i) →
     is_Some (rows (db (serve e account_id req w).2) !! i)).
Proof.
  destruct e; simpl methods.
  - done.
  - done.
  - split; [intros Hpost; not_registered|]. intros _.
    rewrite serve_create_accounts, create_accounts_run.
    case_decide; [|done].
    destruct (json_body req) as [data|]; [|done].
    destruct (deserialize_fields data); [|done].
    simpl. rewrite lookup_insert. case_decide; [by eauto|done].
  - done.
  - rewrite serve_get_account, get_account_run. done.
  - rewrite serve_update_account, update_account_run. cbv zeta.
    destruct (rows (db w) !! account_id) as [old|] eqn:Hold; [|done].
    case_decide; [|done].
    destruct (json_body req) as [data|]; [|done].
    destruct (deserialize_fields data); [|done].
    simpl. split; intros _; rewrite lookup_insert; case_decide;
      subst; rewrite ?Hold; eauto.
  - split; [|intros Hdelete; not_registered]. intros _.
    rewrite serve_delete_account, delete_account_run.
    destruct (rows (db w) !! account_id); [|done].
    simpl. rewrite lookup_delete. case_decide; [by intros [? ?]|done].
Qed.

End routes.

Section compositions.
Context `{Serializer}.

Implicit Types (req : Request) (w : World) (account_id : Z).

(** X6: after a successful Update, a Read of the same id answers with
    the very response Update gave: status 200, the same body, no extra
    header. *)
Theorem update_then_read account_id req w resp w' req2 :
  update_account account_id req w = (Return resp, w') →
  (get_account account_id req2 w').1 = Return resp.
Proof.
  rewrite update_account_run. cbv zeta.
  destruct (rows (db w) !! account_id) as [old|]; [|discriminate].
  case_decide; [|discriminate].
  destruct (json_body req) as [data|]; [|discriminate].
  destruct (deserialize_fields data) as [f|]; [|discriminate].
  intros [= <- <-]. rewrite get_account_run.
  cbn [fst db rows]. by rewrite lookup_insert_eq.
Qed.

(** X7: Update and Delete act on the addressed record only: whatever
    they do, the Read of any other id answers as it did before. *)
Theorem other_records_untouched account_id (other : Z) req w req2 :
  other ≠ account_id →
  (get_account other req2 (update_account account_id req w).2).1
    = (get_account other req2 w).1
  ∧ (get_account other req2 (delete_account account_id req w).2).1
    = (get_account other req2 w).1.
Proof.
  intros Hne. rewrite !get_account_run. cbn [fst]. split.
  - rewrite update_account_run. cbv zeta.
    destruct (rows (db w) !! account_id) as [old|]; [|done].
    case_decide; [|done].
    destruct (json_body req) as [data|]; [|done].
    destruct (deserialize_fields data) as [f|]; [|done].
    cbn [snd db rows]. by rewrite lookup_insert_ne.
  - rewrite delete_account_run.
    destruct (rows (db w) !! account_id) as [old|]; [|done].
    cbn [snd db rows]. by rewrite lookup_delete_ne.
Qed.

(** X8: after a successful Create on a store whose id sequence is ahead
    of the stored ids, List returns what it returned before plus the
    body of the Create response, once: nothing else appears and nothing
    disappears (the order is the store's). *)
Theorem create_then_list req w resp w' req2 :
  sequence_ahead (db w) →
  create_accounts req w = (Return resp, w') →
  ∃ created before after,
    body resp = JsonBody created
    ∧ (list_accounts req2 w).1 =
        Return (make_response (JsonList before) 200 [])
    ∧ (list_accounts req2 w').1 =
        Return (make_response (JsonList after) 200 [])
    ∧ after ≡ₚ created :: before.
Proof.
  intros Hs. rewrite create_accounts_run. case_decide; [|discriminate].
  destruct (json_body req) as [data|]; [|discriminate].
  destruct (deserialize_fields data) as [f|]; [|discriminate].
  cbv zeta. intros [= <- <-]. rewrite !list_accounts_run.
  eexists _, _, _. split; [reflexivity|]. split; [reflexivity|].
  split; [reflexivity|]. unfold Account.listing. cbn [db rows].
  rewrite (map_to_list_insert _ _ _ (sequence_ahead_fresh _ Hs)).
  reflexivity.
Qed.

(** X9: once an id has been deleted, a Read of it and an Update of it
    both answer 404, whatever the requests carry and whether or not the
    id was stored before. *)
Theorem delete_then_not_found account_id req w req2 :
  (get_account account_id req2 (delete_account account_id req w).2).1
    = Raise (HTTPException 404 (not_found_message account_id))
  ∧ (update_account account_id req2 (delete_account account_id req w).2).1
    = Raise (HTTPException 404 (not_found_message account_id)).
Proof.
  assert (Hgone :
    rows (db (delete_account account_id req w).2) !! account_id = None).
  { rewrite delete_account_run.
    destruct (rows (db w) !! account_id) eqn:Hold; cbn [snd db rows].
    - apply lookup_delete_eq.
    - exact Hold. }
  split.
  - rewrite get_account_run. cbn [fst]. by rewrite Hgone.
  - rewrite update_account_run. cbv zeta. by rewrite Hgone.
Qed.

(** X10: Delete of a stored id takes exactly that Account's element out
    of what List returns; Delete of an id that is not stored leaves what
    List returns unchanged. *)
Theorem delete_then_list account_id req w req2 :
  ∃ before after,
    (list_accounts req2 w).1 =
      Return (make_response (JsonList before) 200 [])
    ∧ (list_accounts req2 (delete_account account_id req w).2).1 =
        Return (make_response (JsonList after) 200 [])
    ∧ match rows (db w) !! account_id with
      | Some f =>
          before ≡ₚ
            Account.serialize {| Account.id := Some account_id;
                                 Account.fields := f |} :: after
      | None => after = before
      end.
Proof.
  rewrite !list_accounts_run, delete_account_run.
  eexists _, _. split; [reflexivity|]. split; [reflexivity|].
  destruct (rows (db w) !! account_id) as [f|] eqn:Hold; [|reflexivity].
  unfold Account.listing. cbn [snd db rows].
  rewrite <- (map_to_list_delete _ _ _ Hold). reflexivity.
Qed.

(** X11: a successful Update replaces one element of what List returns,
    the one of the addressed Account, by the body of the Update
    response; the other elements are the same, so their number does not
    change. *)
Theorem update_then_list account_id req w resp w' req2 :
  update_account account_id req w = (Return resp, w') →
  ∃ old updated rest before after,
    rows (db w) !! account_id = Some old
    ∧ body resp = JsonBody updated
    ∧ (list_accounts req2 w).1 =
        Return (make_response (JsonList before) 200 [])
    ∧ (list_accounts req2 w').1 =
        Return (make_response (JsonList after) 200 [])
    ∧ before ≡ₚ
        Account.serialize {| Account.id := Some account_id;
                             Account.fields := old |} :: rest
    ∧ after ≡ₚ updated :: rest.
Proof.
  rewrite update_account_run. cbv zeta.
  destruct (rows (db w) !! account_id) as [old|] eqn:Hold; [|discriminate].
  case_decide; [|discriminate].
  destruct (json_body req) as [data|]; [|discriminate].
  destruct (deserialize_fields data) as [f|]; [|discriminate].
  intros [= <- <-]. rewrite !list_accounts_run.
  exists old. eexists _, (Account.serialize <$>
    Account.listing {| rows := delete account_id (rows (db w));
                       next_id := next_id (db w) |}), _, _.
  split; [reflexivity|]. split; [reflexivity|].
  split; [reflexivity|]. split; [reflexivity|].
  unfold Account.listing. cbn [db rows]. split.
  - rewrite <- (map_to_list_delete _ _ _ Hold). reflexivity.
  - rewrite <- insert_delete_eq.
    rewrite map_to_list_insert by apply lookup_delete_eq. reflexivity.
Qed.

End compositions.

(** ** The further properties on the sample requests *)

Section more_scenarios.
#[local] Existing Instance sample_serializer.

(** An exact match is required: a charset parameter or another
    capitalisation is refused. *)
Example content_type_with_charset :
  (check_content_type "application/json"
     {| content_type_header := Some "application/json; charset=utf-8";
        json_body := None;
        external_base := "http://localhost" |} empty_world).1
  = Raise (HTTPException 415 "Content-Type must be application/json").
Proof. vm_compute. reflexivity. Qed.

Example health_ok :
  (health bare_get alice_world).1 = Return ([("status", "OK")], 200).
Proof. reflexivity. Qed.

Lemma get_routes_are_safe_witness :
  GET ∈ methods endpoint.get_account
  ∧ db (serve endpoint.get_account 1 bare_get alice_bob_world).2
    = db alice_bob_world
  ∧ ∃ cs,
      calls (serve endpoint.get_account 1 bare_get alice_bob_world).2
        = (calls alice_bob_world ++ cs)%list
      ∧ forallb is_read cs = true.
Proof.
  assert (Hget : GET ∈ methods endpoint.get_account) by constructor.
  split; [exact Hget|].
  exact (get_routes_are_safe endpoint.get_account 1 bare_get
           alice_bob_world Hget).
Defined.

Lemma non_post_routes_idempotent_witness :
  (POST ∉ methods endpoint.update_account)
  ∧ (serve endpoint.update_account 1 alicia_put
       (serve endpoint.update_account 1 alicia_put alice_bob_world).2).1
    = (serve endpoint.update_account 1 alicia_put alice_bob_world).1
  ∧ db (serve endpoint.update_account 1 alicia_put
          (serve endpoint.update_account 1 alicia_put alice_bob_world).2).2
    = db (serve endpoint.update_account 1 alicia_put alice_bob_world).2.
Proof.
  assert (Hpost : POST ∉ methods endpoint.update_account).
  { intros Hin%list_elem_of_singleton. discriminate. }
  split; [exact Hpost|].
  exact (non_post_routes_idempotent endpoint.update_account 1 alicia_put
           alice_bob_world Hpost).
Defined.

Lemma ids_added_by_post_removed_by_delete_witness :
  is_Some (rows (db alice_bob_world) !! 1)
  ∧ is_Some
      (rows (db (serve endpoint.update_account 1 alicia_put
                   alice_bob_world).2) !! 1).
Proof.
  assert (Hpost : POST ∉ methods endpoint.update_account).
  { intros Hin%list_elem_of_singleton. discriminate. }
  assert (Hdelete : DELETE ∉ methods endpoint.update_account).
  { intros Hin%list_elem_of_singleton. discriminate. }
  assert (Hafter : is_Some
    (rows (db (serve endpoint.update_account 1 alicia_put
                 alice_bob_world).2) !! 1))
    by (vm_compute; eexists; reflexivity).
  destruct (ids_added_by_post_removed_by_delete endpoint.update_account 1
              alicia_put alice_bob_world 1) as [Hadded Hremoved].
  split.
  - exact (Hadded Hpost Hafter).
  - exact (Hremoved Hdelete (Hadded Hpost Hafter)).
Defined.

Lemma update_then_read_witness :
  (get_account 1 bare_get
     (update_account 1 alicia_put alice_bob_world).2).1 =
    Return {| body := @JsonBody sample_serializer
                        [("id", "1"); ("name", "Alicia");
                         ("email", "alicia@example.com")];
              status_code := 200;
              headers := [] |}.
Proof.
  apply (update_then_read 1 alicia_put alice_bob_world).
  vm_compute. reflexivity.
Defined.

Lemma other_records_untouched_witness :
  (get_account 2 bare_get (update_account 1 alicia_put alice_bob_world).2).1
    = (get_account 2 bare_get alice_bob_world).1
  ∧ (get_account 2 bare_get (delete_account 1 bare_get alice_bob_world).2).1
    = (get_account 2 bare_get alice_bob_world).1.
Proof.
  destruct (other_records_untouched 1 2 alicia_put alice_bob_world bare_get)
    as [Hupdate _]; [discriminate|].
  destruct (other_records_untouched 1 2 bare_get alice_bob_world bare_get)
    as [_ Hdelete]; [discriminate|].
  split; [exact Hupdate | exact Hdelete].
Defined.

Lemma create_then_list_witness :
  ∃ created before after,
    @JsonBody sample_serializer [("id", "2"); ("name", "Bob")]
      = JsonBody created
    ∧ (list_accounts bare_get alice_world).1 =
        Return (make_response (JsonList before) 200 [])
    ∧ (list_accounts bare_get alice_bob_world).1 =
        Return (make_response (JsonList after) 200 [])
    ∧ after ≡ₚ created :: before.
Proof.
  apply (create_then_list bob_post alice_world
           {| body := @JsonBody sample_serializer
                        [("id", "2"); ("name", "Bob")];
              status_code := 201;
              headers := [("Location", "http://localhost/accounts/2")] |}
           alice_bob_world bare_get).
  - exact (proj1 (sequence_ahead_preserved 0 alice_post empty_world
                    sequence_ahead_empty)).
  - vm_compute. reflexivity.
Defined.

Lemma update_then_list_witness :
  ∃ old updated rest before after,
    rows (db alice_bob_world) !! 1 = Some old
    ∧ @JsonBody sample_serializer
        [("id", "1"); ("name", "Alicia"); ("email", "alicia@example.com")]
      = JsonBody updated
    ∧ (list_accounts bare_get alice_bob_world).1 =
        Return (make_response (JsonList before) 200 [])
    ∧ (list_accounts bare_get
         (update_account 1 alicia_put alice_bob_world).2).1 =
        Return (make_response (JsonList after) 200 [])
    ∧ before ≡ₚ
        Account.serialize {| Account.id := Some 1;
                             Account.fields := old |} :: rest
    ∧ after ≡ₚ updated :: rest.
Proof.
  apply (update_then_list 1 alicia_put alice_bob_world
           {| body := @JsonBody sample_serializer
                        [("id", "1"); ("name", "Alicia");
                         ("email", "alicia@example.com")];
              status_code := 200;
              headers := [] |}).
  vm_compute. reflexivity.
Defined.

End more_scenarios.
